(** * qutebrowser: the QtWebEngine view and page adapters

    A shallow embedding of [qutebrowser/browser/webengine/webview.py]:
    the two classes [WebEngineView] and [WebEnginePage], their callbacks
    and the one piece of state they own (the page's shutting-down flag).

    The callbacks are effectful: they log, emit Qt signals, call into the
    tab registry, the shared policy module, the template renderer and the
    configuration.  Each callback is embedded as a computation in a small
    state / exception / output monad: the state is the Python object
    ([self]), an exception is a Python [raise], and the output is the
    ordered list of effects the callback performed.  The answers of the
    collaborators are supplied by an environment record [Env]. *)

From Stdlib Require Import ZArith String.
From stdpp Require Import base option list gmap strings pretty.

Local Open Scope Z_scope.
Local Open Scope string_scope.
Local Open Scope list_scope.

(** ** Qt values *)

Module Qt.

(** [QUrl], as far as the adapters look at it: the scheme, everything
    after the scheme and the validity bit. *)
Record QUrl := mkQUrl {
  scheme : string;
  remainder : string;
  isValid : bool
}.

Definition toDisplayString (u : QUrl) : string :=
  scheme u +:+ ":" +:+ remainder u.

(** [url.matches(other, QUrl.RemoveScheme)] *)
Definition matches_RemoveScheme (u other : QUrl) : bool :=
  String.eqb (remainder u) (remainder other).

(** [str(url)] of a PyQt5 [QUrl] *)
Definition str_QUrl (u : QUrl) : string :=
  "PyQt5.QtCore.QUrl('" +:+ toDisplayString u +:+ "')".

(** [QWebEnginePage::WebWindowType] *)
Definition WebBrowserWindow : Z := 0.
Definition WebBrowserTab : Z := 1.
Definition WebDialog : Z := 2.
Definition WebBrowserBackgroundTab : Z := 3.

(** [QWebEnginePage::NavigationType] *)
Definition NavigationTypeLinkClicked : Z := 0.
Definition NavigationTypeTyped : Z := 1.
Definition NavigationTypeFormSubmitted : Z := 2.
Definition NavigationTypeBackForward : Z := 3.
Definition NavigationTypeReload : Z := 4.
Definition NavigationTypeOther : Z := 5.

(** [QWebEnginePage::JavaScriptConsoleMessageLevel] *)
Definition InfoMessageLevel : Z := 0.
Definition WarningMessageLevel : Z := 1.
Definition ErrorMessageLevel : Z := 2.

End Qt.
Export Qt.

(** ** Collaborator data *)

(** Modelled from the spec: [usertypes.ClickTarget] is not part of this
    file.  The code only names [ClickTarget.normal]; the other members
    are the targets "meant for a new tab/window". *)
Inductive ClickTarget := normal | tab | tab_bg | window.

Definition ClickTarget_eqb (a b : ClickTarget) : bool :=
  match a, b with
  | normal, normal | tab, tab | tab_bg, tab_bg | window, window => true
  | _, _ => false
  end.

(** Modelled from the spec: the per-tab state handed to the page at
    construction; [combined_target()] is its current link-click target. *)
Record TabData := mkTabData { combined_target : ClickTarget }.

(** [certificateerror.CertificateErrorWrapper(error)] together with the
    [error.url()] of the wrapped engine error. *)
Record CertificateError := mkCertificateError {
  url : QUrl;
  is_overridable : bool;
  str_error : string
}.

(** The widget of a tab, [tab._widget]: a view object, by identity. *)
Definition Widget := Z.

(** What a [shared.javascript_*] function does: answer, or raise
    [shared.CallSuper]. *)
Inductive Policy (A : Type) := Answer (a : A) | CallSuper.
Arguments Answer {A} a.
Arguments CallSuper {A}.

(** ** Effects *)

Inductive LogSink :=
  | webview_debug | webview_warning | webview_error
  | js_info | js_warning | js_error.

Inductive Signal :=
  | certificate_error
  | link_clicked (u : QUrl)
  | shutting_down.

Inductive Event :=
  | Log (sink : LogSink) (msg : string)
  | Emit (sig : Signal)
  | ObjregGet (name scope : string) (win : Z)
  | TabOpen (win : Z) (background : bool)
  | JinjaRender (template title url_string error icon : string)
  | IgnoreCertificateErrors (u : QUrl) (errors : list CertificateError)
  | JavascriptConfirm (u : QUrl) (js_msg : string)
  | JavascriptAlert (u : QUrl) (js_msg : string)
  | SuperJavaScriptConfirm (u : QUrl) (js_msg : string)
  | SuperJavaScriptAlert (u : QUrl) (js_msg : string)
  | ConfigGet (sect opt : string)
  | SetHtml (content : string).

(** The tab-management collaborator: the registry lookup and [tabopen]. *)
Definition is_tab_call (e : Event) : bool :=
  match e with ObjregGet _ _ _ | TabOpen _ _ => true | _ => false end.

(** The policy collaborator, [qutebrowser.browser.shared]. *)
Definition is_policy_call (e : Event) : bool :=
  match e with
  | IgnoreCertificateErrors _ _ | JavascriptConfirm _ _
  | JavascriptAlert _ _ => true
  | _ => false
  end.

Definition is_SetHtml (e : Event) : bool :=
  match e with SetHtml _ => true | _ => false end.

Definition is_link_clicked (e : Event) : bool :=
  match e with Emit (link_clicked _) => true | _ => false end.

(** Python exceptions raised by the adapters themselves. *)
Inductive Exn :=
  | ValueError (msg : string)
  | KeyError (key : Z).

Inductive Result (A : Type) :=
  | Return (a : A)
  | Raise (e : Exn).
Arguments Return {A} a.
Arguments Raise {A} e.

(** ** The environment: what the collaborators answer

    The collaborators live outside this file.  Each is a function from
    the arguments the adapter passes to the answer it gets back; a call
    is recorded as an [Event] and does not touch the adapter's own
    object. *)

Record Env := mkEnv {
  (** [qtutils.version_check(v)]: the running Qt is at least [v] *)
  version_check : string -> bool;
  (** [os.environ] *)
  environ : gmap string string;
  (** [hasattr(QWebEnginePage, 'WebBrowserBackgroundTab')] (Qt >= 5.7) *)
  has_WebBrowserBackgroundTab : bool;
  (** [debug.qenum_key(QWebEnginePage, value)], by enum class *)
  qenum_key : string -> Z -> string;
  (** [objreg.get('tabbed-browser', ...).tabopen(background=b)._widget] *)
  tabopen_widget : Z -> bool -> option Widget;
  (** [jinja.render(template, title=, url=, error=, icon=)] *)
  jinja_render : string -> string -> string -> string -> string -> string;
  (** [shared.ignore_certificate_errors(url, errors, abort_on=...)] *)
  ignore_certificate_errors : QUrl -> list CertificateError -> bool;
  (** [shared.javascript_confirm(url, js_msg, abort_on=...)] *)
  javascript_confirm : QUrl -> string -> Policy bool;
  (** [shared.javascript_alert(url, js_msg, abort_on=...)] *)
  javascript_alert : QUrl -> string -> Policy unit;
  (** [QWebEnginePage.javaScriptConfirm], the engine's own dialog *)
  super_javaScriptConfirm : QUrl -> string -> bool;
  (** [config.get(section, option)] *)
  config_get : string -> string -> string
}.

(** ** The monad of a callback on an object of type [S] *)

Definition M (S A : Type) : Type := S -> Result A * S * list Event.

Definition ret {S A} (a : A) : M S A := fun s => (Return a, s, []).

Definition bind {S A B} (m : M S A) (f : A -> M S B) : M S B :=
  fun s =>
    match m s with
    | (Return a, s1, t1) =>
        let '(r, s2, t2) := f a s1 in (r, s2, t1 ++ t2)
    | (Raise e, s1, t1) => (Raise e, s1, t1)
    end.

Definition raise {S A} (e : Exn) : M S A := fun s => (Raise e, s, []).
Definition get {S} : M S S := fun s => (Return s, s, []).
Definition put {S} (s : S) : M S unit := fun _ => (Return tt, s, []).
Definition emit {S} (e : Event) : M S unit := fun s => (Return tt, s, [e]).

(** A call to a collaborator: recorded, answered by the environment. *)
Definition call {S A} (e : Event) (answer : A) : M S A :=
  fun s => (Return answer, s, [e]).

Declare Scope py_scope.
Delimit Scope py_scope with py.
Notation "x <- m ;; k" := (bind m (fun x => k))
  (at level 100, m at next level, right associativity) : py_scope.
Notation "m ;; k" := (bind m (fun _ => k))
  (at level 100, right associativity) : py_scope.
Local Open Scope py_scope.

Definition result_of {S A} (x : Result A * S * list Event) : Result A := x.1.1.
Definition state_of {S A} (x : Result A * S * list Event) : S := x.1.2.
Definition trace_of {S A} (x : Result A * S * list Event) : list Event := x.2.

(** [str(b)] of a Python bool *)
Definition str_bool (b : bool) : string := if b then "True" else "False".

(** Truth value of a Python string *)
Definition truthy (s : string) : bool := negb (String.eqb s "").

(** ** WebEnginePage *)

Module WebEnginePage.

Record Page := mkPage {
  _tabdata : TabData;
  _is_shutting_down : bool;
  (** engine state the callbacks read or write *)
  requestedUrl : QUrl;
  html : string
}.

Definition set_is_shutting_down (b : bool) (p : Page) : Page :=
  {| _tabdata := _tabdata p; _is_shutting_down := b;
     requestedUrl := requestedUrl p; html := html p |}.

(** [self.setHtml(content)] *)
Definition setHtml (content : string) : M Page unit :=
  p <- get ;;
  put {| _tabdata := _tabdata p; _is_shutting_down := _is_shutting_down p;
         requestedUrl := requestedUrl p; html := content |} ;;
  emit (SetHtml content).

Definition __init__ (tabdata : TabData) (requested : QUrl) (content : string)
  : Page :=
  {| _tabdata := tabdata; _is_shutting_down := false;
     requestedUrl := requested; html := content |}.

Definition shutdown : M Page unit :=
  p <- get ;;
  put (set_is_shutting_down true p) ;;
  emit (Emit shutting_down).

Definition certificateError (env : Env) (error : CertificateError)
  : M Page bool :=
  emit (Emit certificate_error) ;;
  let url := url error in
  emit (Log webview_debug ("Certificate error: " +:+ str_error error)) ;;
  let url_string := toDisplayString url in
  error_page <-
    (let title := "Error loading page: " +:+ url_string in
     call (JinjaRender "error.html" title url_string (str_error error) "")
          (jinja_render env "error.html" title url_string
                        (str_error error) "")) ;;
  ignore <-
    (if is_overridable error then
       call (IgnoreCertificateErrors url [error])
            (ignore_certificate_errors env url [error])
     else
       emit (Log webview_error
               ("Non-overridable certificate error: " +:+ str_error error)) ;;
       ret false) ;;
  p <- get ;;
  emit (Log webview_debug
          ("ignore " +:+ str_bool ignore +:+ ", URL " +:+ str_QUrl url
           +:+ ", requested " +:+ str_QUrl (requestedUrl p))) ;;
  (if negb ignore && matches_RemoveScheme url (requestedUrl p)
   then setHtml error_page else ret tt) ;;
  ret ignore.

Definition javaScriptConfirm (env : Env) (url : QUrl) (js_msg : string)
  : M Page bool :=
  p <- get ;;
  if _is_shutting_down p then ret false
  else
    r <- call (JavascriptConfirm url js_msg)
              (javascript_confirm env url js_msg) ;;
    match r with
    | Answer b => ret b
    | CallSuper =>
        call (SuperJavaScriptConfirm url js_msg)
             (super_javaScriptConfirm env url js_msg)
    end.

Definition javaScriptAlert (env : Env) (url : QUrl) (js_msg : string)
  : M Page unit :=
  p <- get ;;
  if _is_shutting_down p then ret tt
  else
    r <- call (JavascriptAlert url js_msg)
              (javascript_alert env url js_msg) ;;
    match r with
    | Answer _ => ret tt
    | CallSuper => call (SuperJavaScriptAlert url js_msg) tt
    end.

Definition level_to_logger : gmap Z LogSink :=
  {[ InfoMessageLevel := js_info;
     WarningMessageLevel := js_warning;
     ErrorMessageLevel := js_error ]}.

Definition javaScriptConsoleMessage (env : Env)
    (level : Z) (msg : string) (line : Z) (source : string) : M Page unit :=
  setting <- call (ConfigGet "general" "log-javascript-console")
                  (config_get env "general" "log-javascript-console") ;;
  if String.eqb setting "none" then ret tt
  else
    let logstring := "[" +:+ source +:+ ":" +:+ pretty line +:+ "] " +:+ msg in
    match level_to_logger !! level with
    | Some logger => emit (Log logger logstring)
    | None => raise (KeyError level)
    end.

Definition str_ClickTarget (t : ClickTarget) : string :=
  match t with
  | normal => "ClickTarget.normal"
  | tab => "ClickTarget.tab"
  | tab_bg => "ClickTarget.tab_bg"
  | window => "ClickTarget.window"
  end.

Definition acceptNavigationRequest (env : Env)
    (url : QUrl) (typ : Z) (is_main_frame : bool) : M Page bool :=
  p <- get ;;
  let target := combined_target (_tabdata p) in
  emit (Log webview_debug
          ("navigation request: url " +:+ toDisplayString url
           +:+ ", type " +:+ qenum_key env "NavigationType" typ
           +:+ ", target " +:+ str_ClickTarget target
           +:+ ", is_main_frame " +:+ str_bool is_main_frame)) ;;
  if negb (Z.eqb typ NavigationTypeLinkClicked) then ret true
  else
    emit (Emit (link_clicked url)) ;;
    ret (isValid url && ClickTarget_eqb target normal).

End WebEnginePage.

(** ** WebEngineView *)

Module WebEngineView.

Import WebEnginePage.

Record View := mkView {
  _win_id : Z;
  page : Page
}.

Definition __init__ (tabdata : TabData) (win_id : Z)
    (requested : QUrl) (content : string) : View :=
  {| _win_id := win_id;
     page := WebEnginePage.__init__ tabdata requested content |}.

(** [self.page().method(...)]: a page callback run on the view's page *)
Definition on_page {A} (m : M Page A) : M View A :=
  fun v =>
    let '(r, p, t) := m (page v) in
    (r, {| _win_id := _win_id v; page := p |}, t).

Definition shutdown : M View unit := on_page WebEnginePage.shutdown.

(** The workaround gate for QTBUG-54419. *)
Definition qtbug_54419_fixed (env : Env) : bool :=
  let vercheck := version_check env in
  (vercheck "5.6.2" && negb (vercheck "5.7.0"))
  || version_check env "5.7.1"
  || truthy (default "" (environ env !! "QUTE_QTBUG54419_PATCHED")).

Definition createWindow (env : Env) (wintype : Z) : M View (option Widget) :=
  let debug_type := qenum_key env "WebWindowType" wintype in
  emit (Log webview_debug ("createWindow with type " +:+ debug_type)) ;;
  if negb (qtbug_54419_fixed env) then
    emit (Log webview_debug "Ignoring createWindow because of QTBUG-54419") ;;
    ret None
  else
    background <-
      (if bool_decide (wintype ∈ [WebBrowserWindow; WebDialog]) then
         emit (Log webview_warning
                 (debug_type +:+ " requested, but we don't support that!")) ;;
         ret false
       else if Z.eqb wintype WebBrowserTab then
         ret false
       else if has_WebBrowserBackgroundTab env
               && Z.eqb wintype WebBrowserBackgroundTab then
         ret true
       else
         raise (ValueError ("Invalid wintype " +:+ debug_type))) ;;
    v <- get ;;
    emit (ObjregGet "tabbed-browser" "window" (_win_id v)) ;;
    call (TabOpen (_win_id v) background)
         (tabopen_widget env (_win_id v) background).

End WebEngineView.

Import WebEnginePage WebEngineView.

(** ** Sequences of callbacks

    Every method of the two classes, as the engine and the application
    may invoke them on one view, in any order. *)

Inductive Call :=
  | View_shutdown
  | View_createWindow (wintype : Z)
  | Page_shutdown
  | Page_certificateError (error : CertificateError)
  | Page_javaScriptConfirm (u : QUrl) (js_msg : string)
  | Page_javaScriptAlert (u : QUrl) (js_msg : string)
  | Page_javaScriptConsoleMessage (level : Z) (msg : string) (line : Z)
                                  (source : string)
  | Page_acceptNavigationRequest (u : QUrl) (typ : Z) (is_main_frame : bool).

(** Forget the value a callback returns. *)
Definition void {S A} (m : M S A) : M S unit := m ;; ret tt.

Definition perform (env : Env) (c : Call) : M View unit :=
  match c with
  | View_shutdown => WebEngineView.shutdown
  | View_createWindow wintype => void (createWindow env wintype)
  | Page_shutdown => on_page WebEnginePage.shutdown
  | Page_certificateError error => void (on_page (certificateError env error))
  | Page_javaScriptConfirm u js_msg =>
      void (on_page (javaScriptConfirm env u js_msg))
  | Page_javaScriptAlert u js_msg => on_page (javaScriptAlert env u js_msg)
  | Page_javaScriptConsoleMessage level msg line source =>
      on_page (javaScriptConsoleMessage env level msg line source)
  | Page_acceptNavigationRequest u typ is_main_frame =>
      void (on_page (acceptNavigationRequest env u typ is_main_frame))
  end.

(** The view after a callback, whether it returned or raised: the event
    loop goes on with the object as the callback left it. *)
Definition step (env : Env) (v : View) (c : Call) : View :=
  state_of (perform env c v).

Definition run (env : Env) (cs : list Call) (v : View) : View :=
  fold_left (step env) cs v.

Definition shutting_down_flag (v : View) : bool := _is_shutting_down (page v).

(** ** Sample inputs *)

Module Sample.

Definition example_url : QUrl := mkQUrl "https" "//example.org/" true.
Definition example_http : QUrl := mkQUrl "http" "//example.org/" true.
Definition broken_url : QUrl := mkQUrl "" "" false.

Definition key_of (cls : string) (value : Z) : string :=
  cls +:+ "(" +:+ pretty value +:+ ")".

(** Qt 5.6.2: the first version range of the gate holds. *)
Definition qt_5_6_2 : Env :=
  {| version_check := fun v => String.eqb v "5.6.2";
     environ := ∅;
     has_WebBrowserBackgroundTab := false;
     qenum_key := key_of;
     tabopen_widget := fun win background => Some (if background then 8 else 7);
     jinja_render := fun template title url_string error icon =>
                       "<h1>" +:+ title +:+ "</h1>" +:+ error;
     ignore_certificate_errors := fun _ _ => true;
     javascript_confirm := fun _ _ => Answer true;
     javascript_alert := fun _ _ => Answer tt;
     super_javaScriptConfirm := fun _ _ => true;
     config_get := fun _ _ => "debug" |}.

(** Qt 5.7.0 without the environment override: the gate is closed. *)
Definition qt_5_7_0 : Env :=
  {| version_check := fun v => String.eqb v "5.6.2" || String.eqb v "5.7.0";
     environ := ∅;
     has_WebBrowserBackgroundTab := true;
     qenum_key := key_of;
     tabopen_widget := fun win background => Some (if background then 8 else 7);
     jinja_render := fun template title url_string error icon =>
                       "<h1>" +:+ title +:+ "</h1>" +:+ error;
     ignore_certificate_errors := fun _ _ => false;
     javascript_confirm := fun _ _ => CallSuper;
     javascript_alert := fun _ _ => CallSuper;
     super_javaScriptConfirm := fun _ _ => true;
     config_get := fun _ _ => "debug" |}.

Definition a_view : View :=
  WebEngineView.__init__ (mkTabData normal) 0 example_url "".

Definition a_page : Page := page a_view.

Definition fatal_error : CertificateError :=
  mkCertificateError example_http false "ERR_CERT_REVOKED".

End Sample.

(** ** Properties of an outcome, used to state the theorems *)

(** The callback performed no call to the tab-management collaborator. *)
Definition no_tab_call {S A} (out : Result A * S * list Event) : Prop :=
  Forall (fun e => is_tab_call e = false) (trace_of out).

(** The callback performed no call to the policy collaborator. *)
Definition no_policy_call {S A} (out : Result A * S * list Event) : Prop :=
  Forall (fun e => is_policy_call e = false) (trace_of out).

(** The callback returned a view object. *)
Definition returns_view {S} (out : Result (option Widget) * S * list Event)
  : Prop :=
  exists w, result_of out = Return (Some w).

(** The callback raised. *)
Definition raises {S A} (out : Result A * S * list Event) : Prop :=
  exists e, result_of out = Raise e.

(** A window kind that [createWindow] logs as unsupported. *)
Definition unsupported_wintype (wintype : Z) : Prop :=
  wintype = WebBrowserWindow \/ wintype = WebDialog.

(** A window kind that is none of the four kinds of the engine. *)
Definition invalid_wintype (wintype : Z) : Prop :=
  wintype <> WebBrowserWindow /\ wintype <> WebDialog /\
  wintype <> WebBrowserTab /\ wintype <> WebBrowserBackgroundTab.

(** A request of an unsupported kind is rejected: no tab is opened and no
    view is returned. *)
Definition rejected (env : Env) (wintype : Z) (v : View) : Prop :=
  no_tab_call (createWindow env wintype v) /\
  ~ returns_view (createWindow env wintype v).

(** A console message level the handler has a logger for. *)
Definition known_level (level : Z) : Prop :=
  level = InfoMessageLevel \/ level = WarningMessageLevel \/
  level = ErrorMessageLevel.

(** The page [certificateError] renders for an error. *)
Definition error_page (env : Env) (error : CertificateError) : string :=
  let url_string := toDisplayString (url error) in
  jinja_render env "error.html" ("Error loading page: " +:+ url_string)
               url_string (str_error error) "".

(** The message [createWindow] logs first. *)
Definition createWindow_debug (env : Env) (wintype : Z) : Event :=
  Log webview_debug
      ("createWindow with type " +:+ qenum_key env "WebWindowType" wintype).

(** A callback that never lowers a boolean attribute [flag] of its
    object. *)
Definition keeps {S A} (flag : S -> bool) (m : M S A) : Prop :=
  forall s, flag s = true -> flag (state_of (m s)) = true.

(** The ignore decision [certificateError] reaches. *)
Definition ignore_decision (env : Env) (error : CertificateError) : bool :=
  if is_overridable error
  then ignore_certificate_errors env (url error) [error]
  else false.

(** Whether [certificateError] goes on to show the error page. *)
Definition error_page_shown (env : Env) (error : CertificateError) (p : Page)
  : bool :=
  negb (ignore_decision env error)
  && matches_RemoveScheme (url error) (requestedUrl p).

(** ** Further vocabulary: kinds, calls and effects *)

(** A window kind [createWindow] goes on to open a tab for: the chain of
    tests at lines 85-93, without the branch that raises. *)
Definition accepted_wintype (env : Env) (wintype : Z) : bool :=
  bool_decide (wintype ∈ [WebBrowserWindow; WebDialog])
  || Z.eqb wintype WebBrowserTab
  || (has_WebBrowserBackgroundTab env
      && Z.eqb wintype WebBrowserBackgroundTab).

(** The [background] argument [createWindow] passes to [tabopen] for an
    accepted kind. *)
Definition background_of (env : Env) (wintype : Z) : bool :=
  has_WebBrowserBackgroundTab env && Z.eqb wintype WebBrowserBackgroundTab.

Definition is_TabOpen (e : Event) : bool :=
  match e with TabOpen _ _ => true | _ => false end.

Definition is_Emit (e : Event) : bool :=
  match e with Emit _ => true | _ => false end.

Definition is_Log (e : Event) : bool :=
  match e with Log _ _ => true | _ => false end.


(** The engine's own dialog, reached through [super()]. *)
Definition is_super_call (e : Event) : bool :=
  match e with
  | SuperJavaScriptConfirm _ _ | SuperJavaScriptAlert _ _ => true
  | _ => false
  end.

(** The calls that are [shutdown], of the view or of its page. *)
Definition is_shutdown_call (c : Call) : bool :=
  match c with View_shutdown | Page_shutdown => true | _ => false end.

Definition is_certificateError_call (c : Call) : bool :=
  match c with Page_certificateError _ => true | _ => false end.

(** The two callbacks that contain a [raise] or an unguarded lookup. *)
Definition may_raise (c : Call) : bool :=
  match c with
  | View_createWindow _ | Page_javaScriptConsoleMessage _ _ _ _ => true
  | _ => false
  end.

(** The line [javaScriptConsoleMessage] logs. *)
Definition logstring (source : string) (line : Z) (msg : string) : string :=
  "[" +:+ source +:+ ":" +:+ pretty line +:+ "] " +:+ msg.

(** More environments to run the callbacks in. *)
Module Scenario.

(** Qt 5.7.1: the second version range of the gate holds, and the engine
    knows background tabs. *)
Definition qt_5_7_1 : Env :=
  {| version_check := fun v => String.eqb v "5.6.2" || String.eqb v "5.7.0"
                               || String.eqb v "5.7.1";
     environ := ∅;
     has_WebBrowserBackgroundTab := true;
     qenum_key := Sample.key_of;
     tabopen_widget := fun win background => Some (if background then 8 else 7);
     jinja_render := fun template title url_string error icon =>
                       "<h1>" +:+ title +:+ "</h1>" +:+ error;
     ignore_certificate_errors := fun _ _ => false;
     javascript_confirm := fun _ _ => CallSuper;
     javascript_alert := fun _ _ => CallSuper;
     super_javaScriptConfirm := fun _ _ => true;
     config_get := fun _ _ => "none" |}.

(** Qt 5.7.0 with a patched engine announced through the environment. *)
Definition qt_5_7_0_patched : Env :=
  {| version_check := fun v => String.eqb v "5.6.2" || String.eqb v "5.7.0";
     environ := {[ "QUTE_QTBUG54419_PATCHED" := "1" ]};
     has_WebBrowserBackgroundTab := true;
     qenum_key := Sample.key_of;
     tabopen_widget := fun win background => Some (if background then 8 else 7);
     jinja_render := fun template title url_string error icon =>
                       "<h1>" +:+ title +:+ "</h1>" +:+ error;
     ignore_certificate_errors := fun _ _ => true;
     javascript_confirm := fun _ _ => Answer false;
     javascript_alert := fun _ _ => Answer tt;
     super_javaScriptConfirm := fun _ _ => true;
     config_get := fun _ _ => "info" |}.

Definition soft_error : CertificateError :=
  mkCertificateError Sample.example_http true "ERR_CERT_DATE_INVALID".

End Scenario.

(** Unfold a callback down to the outcome it computes. *)
Ltac run_callback :=
  cbv [createWindow certificateError javaScriptConfirm javaScriptAlert
       javaScriptConsoleMessage acceptNavigationRequest setHtml
       WebEnginePage.shutdown WebEngineView.shutdown on_page void
       bind ret raise get put emit call
       result_of state_of trace_of fst snd app].

(** ** The monad: how outcomes compose *)

Section Monad.

Context {S : Type}.

Variable flag : S -> bool.

Lemma keeps_ret {A} (a : A) : keeps flag (ret a).
Proof. intros s Hs. exact Hs. Qed.

Lemma keeps_raise {A} e : keeps flag (@raise S A e).
Proof. intros s Hs. exact Hs. Qed.

Lemma keeps_get : keeps flag get.
Proof. intros s Hs. exact Hs. Qed.

Lemma keeps_emit e : keeps flag (emit e).
Proof. intros s Hs. exact Hs. Qed.

Lemma keeps_call {A} e (a : A) : keeps flag (call e a).
Proof. intros s Hs. exact Hs. Qed.

Lemma keeps_put s' : flag s' = true -> keeps flag (put s').
Proof. intros Hs' s _. exact Hs'. Qed.

Lemma keeps_bind {A B} (m : M S A) (f : A -> M S B) :
  keeps flag m -> (forall a, keeps flag (f a)) -> keeps flag (bind m f).
Proof.
  intros Hm Hf s Hs. specialize (Hm s Hs).
  unfold bind, state_of in *.
  destruct (m s) as [[[a|e] s1] t1]; simpl in *; [|exact Hm].
  specialize (Hf a s1 Hm).
  destruct (f a s1) as [[r s2] t2]. exact Hf.
Qed.

Lemma keeps_if {A} (b : bool) (m1 m2 : M S A) :
  keeps flag m1 -> keeps flag m2 -> keeps flag (if b then m1 else m2).
Proof. destruct b; auto. Qed.

Lemma keeps_void {A} (m : M S A) : keeps flag m -> keeps flag (void m).
Proof. intros Hm. apply keeps_bind; [exact Hm | intros; apply keeps_ret]. Qed.

End Monad.

Create HintDb keeps.
#[local] Hint Resolve keeps_ret keeps_raise keeps_get keeps_emit keeps_call
  keeps_bind keeps_if keeps_void : keeps.

(** ** createWindow *)

Section CreateWindow.

Variable env : Env.

(** With the gate closed, the two debug lines are all that happens. *)
Lemma createWindow_gate_closed wintype v :
  qtbug_54419_fixed env = false ->
  createWindow env wintype v =
    (Return None, v,
     [createWindow_debug env wintype;
      Log webview_debug "Ignoring createWindow because of QTBUG-54419"]).
Proof. intros Hgate. run_callback. rewrite Hgate. reflexivity. Qed.

(** The gate, spelt out: it is closed exactly when neither version range
    holds and the environment variable is unset or empty. *)
Lemma qtbug_54419_fixed_false :
  qtbug_54419_fixed env = false <->
  (version_check env "5.6.2" && negb (version_check env "5.7.0")) = false /\
  version_check env "5.7.1" = false /\
  (environ env !! "QUTE_QTBUG54419_PATCHED" = None \/
   environ env !! "QUTE_QTBUG54419_PATCHED" = Some "").
Proof.
  unfold qtbug_54419_fixed, truthy.
  rewrite !orb_false_iff, negb_false_iff, String.eqb_eq.
  split.
  - intros [[H1 H2] H3]. repeat split; try assumption.
    destruct (environ env !! "QUTE_QTBUG54419_PATCHED") as [s|];
      simpl in H3; [right; congruence | left; reflexivity].
  - intros (H1 & H2 & [H3|H3]); rewrite H3; auto.
Qed.

Lemma createWindow_unsupported wintype v :
  qtbug_54419_fixed env = true ->
  unsupported_wintype wintype ->
  createWindow env wintype v =
    (Return (tabopen_widget env (_win_id v) false), v,
     [createWindow_debug env wintype;
      Log webview_warning
          (qenum_key env "WebWindowType" wintype
           +:+ " requested, but we don't support that!");
      ObjregGet "tabbed-browser" "window" (_win_id v);
      TabOpen (_win_id v) false]).
Proof.
  intros Hgate Hkind. run_callback. rewrite Hgate. cbn [negb].
  rewrite bool_decide_eq_true_2; [reflexivity|].
  destruct Hkind as [->| ->]; set_solver.
Qed.

Lemma createWindow_invalid wintype v :
  qtbug_54419_fixed env = true ->
  invalid_wintype wintype ->
  createWindow env wintype v =
    (Raise (ValueError ("Invalid wintype "
                        +:+ qenum_key env "WebWindowType" wintype)),
     v, [createWindow_debug env wintype]).
Proof.
  intros Hgate (Hw & Hd & Ht & Hb). run_callback.
  rewrite Hgate. cbn [negb].
  rewrite bool_decide_eq_false_2
    by (rewrite !elem_of_cons, elem_of_nil; tauto).
  apply Z.eqb_neq in Ht, Hb. rewrite Ht, Hb, andb_false_r. reflexivity.
Qed.

End CreateWindow.

(** C1, as the spec states it, fails: on Qt 5.6.2 (gate open) a request
    for a complete browser window is logged as unsupported and then
    opened as a foreground tab, whose widget is returned. *)
Lemma createWindow_unsupported_not_rejected :
  qtbug_54419_fixed Sample.qt_5_6_2 = true /\
  unsupported_wintype WebBrowserWindow /\
  createWindow Sample.qt_5_6_2 WebBrowserWindow Sample.a_view =
    (Return (Some 7), Sample.a_view,
     [Log webview_debug "createWindow with type WebWindowType(0)";
      Log webview_warning
          "WebWindowType(0) requested, but we don't support that!";
      ObjregGet "tabbed-browser" "window" 0;
      TabOpen 0 false]) /\
  ~ rejected Sample.qt_5_6_2 WebBrowserWindow Sample.a_view.
Proof.
  split; [reflexivity|]. split; [left; reflexivity|].
  split; [vm_compute; reflexivity|].
  intros [_ Hno]. apply Hno. exists 7. vm_compute. reflexivity.
Qed.

(** C1, amended: with the workaround gate open, a request of an
    unsupported kind (browser window or web dialog) is not rejected.
    [createWindow] logs a warning and then treats the request as a
    foreground tab: it asks the tab-management collaborator to open a tab
    with [background=False] and returns that tab's widget.  It does not
    raise, and the view itself is left as it was. *)
Theorem createWindow_unsupported_falls_back_to_tab env wintype v :
  qtbug_54419_fixed env = true ->
  unsupported_wintype wintype ->
  let out := createWindow env wintype v in
  result_of out = Return (tabopen_widget env (_win_id v) false) /\
  state_of out = v /\
  trace_of out =
    [createWindow_debug env wintype;
     Log webview_warning
         (qenum_key env "WebWindowType" wintype
          +:+ " requested, but we don't support that!");
     ObjregGet "tabbed-browser" "window" (_win_id v);
     TabOpen (_win_id v) false] /\
  ~ raises out.
Proof.
  intros Hgate Hkind out. subst out.
  rewrite (createWindow_unsupported env wintype v Hgate Hkind).
  repeat split. intros [e He]. discriminate He.
Qed.

Lemma createWindow_unsupported_falls_back_to_tab_witness :
  qtbug_54419_fixed Sample.qt_5_6_2 = true /\
  unsupported_wintype WebDialog /\
  result_of (createWindow Sample.qt_5_6_2 WebDialog Sample.a_view)
    = Return (Some 7).
Proof.
  split; [reflexivity|]. split; [right; reflexivity|].
  apply (createWindow_unsupported_falls_back_to_tab
           Sample.qt_5_6_2 WebDialog Sample.a_view);
    [reflexivity | right; reflexivity].
Defined.

(** C7, as the spec states it, fails: on Qt 5.7.0 without the environment
    override the gate is closed, and a request of the invalid kind 99
    returns None instead of raising. *)
Lemma createWindow_invalid_gate_closed_returns_None :
  invalid_wintype 99 /\
  createWindow Sample.qt_5_7_0 99 Sample.a_view =
    (Return None, Sample.a_view,
     [Log webview_debug "createWindow with type WebWindowType(99)";
      Log webview_debug "Ignoring createWindow because of QTBUG-54419"]) /\
  ~ raises (createWindow Sample.qt_5_7_0 99 Sample.a_view).
Proof.
  split; [repeat split; discriminate|].
  split; [vm_compute; reflexivity|].
  intros [e He]. vm_compute in He. discriminate He.
Qed.

(** C7, amended: with the workaround gate open, a window-creation
    request whose kind is none of browser window, web dialog, foreground
    tab and background tab makes [createWindow] raise [ValueError]; it
    returns neither a view nor None, and the tab-management collaborator
    is not consulted. *)
Theorem createWindow_invalid_raises env wintype v :
  qtbug_54419_fixed env = true ->
  invalid_wintype wintype ->
  let out := createWindow env wintype v in
  result_of out =
    Raise (ValueError ("Invalid wintype "
                       +:+ qenum_key env "WebWindowType" wintype)) /\
  state_of out = v /\
  no_tab_call out.
Proof.
  intros Hgate Hkind out. subst out. unfold no_tab_call.
  rewrite (createWindow_invalid env wintype v Hgate Hkind).
  repeat split. repeat constructor.
Qed.

Lemma createWindow_invalid_raises_witness :
  qtbug_54419_fixed Sample.qt_5_6_2 = true /\
  invalid_wintype 99 /\
  result_of (createWindow Sample.qt_5_6_2 99 Sample.a_view)
    = Raise (ValueError "Invalid wintype WebWindowType(99)").
Proof.
  assert (Hk : invalid_wintype 99) by (repeat split; discriminate).
  split; [reflexivity|]. split; [exact Hk|].
  apply (createWindow_invalid_raises Sample.qt_5_6_2 99 Sample.a_view);
    [reflexivity | exact Hk].
Defined.

(** C9: for every window-creation request, when the workaround gate is
    not active, [createWindow] returns None, leaves the view as it was
    and does not consult the tab-management collaborator; its only
    effects are two debug log lines.  The gate is not active in
    particular when neither Qt version range holds and the environment
    override is unset. *)
Theorem createWindow_gate_closed_returns_None env wintype v :
  (qtbug_54419_fixed env = false ->
   let out := createWindow env wintype v in
   result_of out = Return None /\
   state_of out = v /\
   no_tab_call out /\
   trace_of out =
     [createWindow_debug env wintype;
      Log webview_debug "Ignoring createWindow because of QTBUG-54419"]) /\
  ((version_check env "5.6.2" && negb (version_check env "5.7.0")) = false ->
   version_check env "5.7.1" = false ->
   environ env !! "QUTE_QTBUG54419_PATCHED" = None ->
   qtbug_54419_fixed env = false).
Proof.
  split.
  - intros Hgate out. subst out. unfold no_tab_call.
    rewrite (createWindow_gate_closed env wintype v Hgate).
    repeat split. repeat constructor.
  - intros H1 H2 H3. apply qtbug_54419_fixed_false. auto.
Qed.

Lemma createWindow_gate_closed_returns_None_witness :
  qtbug_54419_fixed Sample.qt_5_7_0 = false /\
  result_of (createWindow Sample.qt_5_7_0 WebBrowserTab Sample.a_view)
    = Return None /\
  no_tab_call (createWindow Sample.qt_5_7_0 WebBrowserTab Sample.a_view).
Proof.
  destruct (createWindow_gate_closed_returns_None
              Sample.qt_5_7_0 WebBrowserTab Sample.a_view) as [Hrun Hgate].
  assert (Hclosed : qtbug_54419_fixed Sample.qt_5_7_0 = false)
    by (apply Hgate; reflexivity).
  destruct (Hrun Hclosed) as (Hres & _ & Hno & _).
  split; [exact Hclosed|]. split; [exact Hres | exact Hno].
Defined.

(** ** certificateError *)

Section CertificateError.

Variable env : Env.
Variable error : CertificateError.
Variable p : Page.

(** Everything [certificateError] does, in order. *)
Lemma certificateError_run :
  certificateError env error p =
    (Return (ignore_decision env error),
     if error_page_shown env error p
     then {| _tabdata := _tabdata p;
             _is_shutting_down := _is_shutting_down p;
             requestedUrl := requestedUrl p;
             html := error_page env error |}
     else p,
     [Emit certificate_error;
      Log webview_debug ("Certificate error: " +:+ str_error error);
      JinjaRender "error.html"
                  ("Error loading page: " +:+ toDisplayString (url error))
                  (toDisplayString (url error)) (str_error error) "";
      if is_overridable error
      then IgnoreCertificateErrors (url error) [error]
      else Log webview_error
               ("Non-overridable certificate error: " +:+ str_error error);
      Log webview_debug
          ("ignore " +:+ str_bool (ignore_decision env error) +:+ ", URL "
           +:+ str_QUrl (url error) +:+ ", requested "
           +:+ str_QUrl (requestedUrl p))]
     ++ (if error_page_shown env error p
         then [SetHtml (error_page env error)] else [])).
Proof.
  unfold error_page_shown, ignore_decision, error_page. run_callback.
  destruct (is_overridable error); run_callback;
    [destruct (ignore_certificate_errors env (url error) [error])|];
    destruct (matches_RemoveScheme (url error) (requestedUrl p));
    reflexivity.
Qed.

Lemma error_page_shown_iff :
  error_page_shown env error p = true <->
  ignore_decision env error = false /\
  matches_RemoveScheme (url error) (requestedUrl p) = true.
Proof.
  unfold error_page_shown.
  rewrite andb_true_iff, negb_true_iff. reflexivity.
Qed.

End CertificateError.

(** C2: for every certificate error that is not overridable,
    [certificateError] returns False (the error is not ignored) and never
    consults the policy collaborator: no call to
    [shared.ignore_certificate_errors] (nor to any other function of the
    policy module) is among its effects. *)
Theorem certificateError_non_overridable env error p :
  is_overridable error = false ->
  let out := certificateError env error p in
  result_of out = Return false /\ no_policy_call out.
Proof.
  intros Hover out. subst out. unfold no_policy_call.
  rewrite certificateError_run.
  unfold error_page_shown, ignore_decision. rewrite Hover. cbn [negb andb].
  split; [reflexivity|].
  destruct (matches_RemoveScheme (url error) (requestedUrl p));
    repeat constructor.
Qed.

Lemma certificateError_non_overridable_witness :
  is_overridable Sample.fatal_error = false /\
  result_of (certificateError Sample.qt_5_6_2 Sample.fatal_error Sample.a_page)
    = Return false /\
  no_policy_call
    (certificateError Sample.qt_5_6_2 Sample.fatal_error Sample.a_page).
Proof.
  split; [reflexivity|].
  apply (certificateError_non_overridable
           Sample.qt_5_6_2 Sample.fatal_error Sample.a_page).
  reflexivity.
Defined.

(** C6: for every certificate error, [certificateError] returns the
    ignore decision, and it sets the rendered error page as the page's
    HTML if and only if the error was not ignored and the failing URL
    matches the requested URL with the scheme ignored.  When it does, the
    page's HTML is the rendered error page and nothing else of the page
    changes; when it does not, the page is left exactly as it was. *)
Theorem certificateError_applies_error_page env error p :
  let out := certificateError env error p in
  exists ignore : bool,
    result_of out = Return ignore /\
    (Exists (fun e => is_SetHtml e = true) (trace_of out) <->
     ignore = false /\
     matches_RemoveScheme (url error) (requestedUrl p) = true) /\
    (ignore = false /\
     matches_RemoveScheme (url error) (requestedUrl p) = true ->
     html (state_of out) = error_page env error /\
     SetHtml (error_page env error) ∈ trace_of out /\
     _is_shutting_down (state_of out) = _is_shutting_down p /\
     _tabdata (state_of out) = _tabdata p /\
     requestedUrl (state_of out) = requestedUrl p) /\
    (~ (ignore = false /\
        matches_RemoveScheme (url error) (requestedUrl p) = true) ->
     state_of out = p).
Proof.
  intros out. subst out. rewrite certificateError_run.
  pose proof (error_page_shown_iff env error p) as Hshown.
  exists (ignore_decision env error). split; [reflexivity|].
  unfold result_of, state_of, trace_of. cbn [fst snd].
  destruct (error_page_shown env error p).
  - assert (Hyes := proj1 Hshown eq_refl).
    split; [|split].
    + split; [intros _; exact Hyes|]. intros _.
      apply Exists_app. right. constructor. reflexivity.
    + intros _. repeat split.
      apply elem_of_app. right. apply list_elem_of_singleton. reflexivity.
    + intros Hno. contradiction.
  - assert (Hno : ~ (ignore_decision env error = false /\
                     matches_RemoveScheme (url error) (requestedUrl p) = true)).
    { intros H. apply Hshown in H. discriminate H. }
    split; [|split].
    + split; [|intros H; contradiction].
      intros HE. exfalso. rewrite app_nil_r in HE.
      repeat (apply Exists_cons in HE as [HE|HE];
              [try discriminate HE|]).
      * destruct (is_overridable error); discriminate HE.
      * apply Exists_nil in HE. exact HE.
    + intros H. contradiction.
    + intros _. reflexivity.
Qed.

Lemma certificateError_applies_error_page_witness :
  result_of (certificateError Sample.qt_5_6_2 Sample.fatal_error Sample.a_page)
    = Return false /\
  html (state_of (certificateError Sample.qt_5_6_2 Sample.fatal_error
                                   Sample.a_page))
    = "<h1>Error loading page: http://example.org/</h1>ERR_CERT_REVOKED".
Proof.
  destruct (certificateError_applies_error_page
              Sample.qt_5_6_2 Sample.fatal_error Sample.a_page)
    as (ignore & Hres & _ & Happly & _).
  assert (Hignore : ignore = false).
  { vm_compute in Hres. congruence. }
  split; [rewrite Hres, Hignore; reflexivity|].
  destruct (Happly (conj Hignore eq_refl)) as [Hhtml _].
  rewrite Hhtml. reflexivity.
Defined.

(** ** JavaScript dialogs *)

(** C3: for every JavaScript confirm or alert call on a page whose
    shutting-down flag is true (as it is once [shutdown] has been
    invoked), the default is produced without the policy collaborator:
    [javaScriptConfirm] returns False and [javaScriptAlert] returns
    nothing, neither performs any effect (so neither calls
    [shared.javascript_confirm] or [shared.javascript_alert], nor the
    engine's own dialog), and the page is left as it was. *)
Theorem dialogs_after_shutdown env u js_msg p :
  _is_shutting_down p = true ->
  javaScriptConfirm env u js_msg p = (Return false, p, []) /\
  javaScriptAlert env u js_msg p = (Return tt, p, []) /\
  no_policy_call (javaScriptConfirm env u js_msg p) /\
  no_policy_call (javaScriptAlert env u js_msg p).
Proof.
  intros Hflag.
  assert (Hc : javaScriptConfirm env u js_msg p = (Return false, p, []))
    by (run_callback; rewrite Hflag; reflexivity).
  assert (Ha : javaScriptAlert env u js_msg p = (Return tt, p, []))
    by (run_callback; rewrite Hflag; reflexivity).
  unfold no_policy_call. rewrite Hc, Ha.
  repeat split; constructor.
Qed.

Lemma dialogs_after_shutdown_witness :
  _is_shutting_down
    (page (run Sample.qt_5_6_2
               [View_shutdown; Page_certificateError Sample.fatal_error]
               Sample.a_view)) = true /\
  result_of (javaScriptConfirm Sample.qt_5_6_2 Sample.example_url "Leave?"
               (page (run Sample.qt_5_6_2
                          [View_shutdown;
                           Page_certificateError Sample.fatal_error]
                          Sample.a_view)))
    = Return false /\
  trace_of (javaScriptAlert Sample.qt_5_6_2 Sample.example_url "Bye"
              (page (run Sample.qt_5_6_2
                         [View_shutdown;
                          Page_certificateError Sample.fatal_error]
                         Sample.a_view))) = [].
Proof.
  split; [reflexivity|].
  destruct (dialogs_after_shutdown Sample.qt_5_6_2 Sample.example_url "Leave?"
              (page (run Sample.qt_5_6_2
                         [View_shutdown;
                          Page_certificateError Sample.fatal_error]
                         Sample.a_view)) eq_refl)
    as (Hc & _).
  destruct (dialogs_after_shutdown Sample.qt_5_6_2 Sample.example_url "Bye"
              (page (run Sample.qt_5_6_2
                         [View_shutdown;
                          Page_certificateError Sample.fatal_error]
                         Sample.a_view)) eq_refl)
    as (_ & Ha & _).
  rewrite Hc, Ha. split; reflexivity.
Defined.

(** ** acceptNavigationRequest *)

Section Navigation.

Variable env : Env.

(** The debug line every navigation request logs first. *)
Lemma acceptNavigationRequest_link u is_main_frame p :
  exists line,
    acceptNavigationRequest env u NavigationTypeLinkClicked is_main_frame p =
      (Return (isValid u
               && ClickTarget_eqb (combined_target (_tabdata p)) normal),
       p, [Log webview_debug line; Emit (link_clicked u)]).
Proof. eexists. run_callback. reflexivity. Qed.

Lemma acceptNavigationRequest_other u typ is_main_frame p :
  typ <> NavigationTypeLinkClicked ->
  exists line,
    acceptNavigationRequest env u typ is_main_frame p =
      (Return true, p, [Log webview_debug line]).
Proof.
  intros Htyp. apply Z.eqb_neq in Htyp.
  eexists. run_callback. rewrite Htyp. reflexivity.
Qed.

Lemma ClickTarget_eqb_eq a b : ClickTarget_eqb a b = true <-> a = b.
Proof. destruct a, b; simpl; split; congruence. Qed.

End Navigation.

(** C4: for every link-click navigation request,
    [acceptNavigationRequest] emits [link_clicked] with the URL (once, and
    whatever it then decides), never raises, leaves the page as it was,
    and accepts the request if and only if the URL is valid and the tab's
    click target is [normal].  In particular a link click on an invalid
    URL is rejected whatever the click target. *)
Theorem acceptNavigationRequest_link_clicked env u is_main_frame p :
  let out :=
    acceptNavigationRequest env u NavigationTypeLinkClicked is_main_frame p in
  exists accepted : bool,
    result_of out = Return accepted /\
    state_of out = p /\
    filter (fun e => is_link_clicked e = true) (trace_of out)
      = [Emit (link_clicked u)] /\
    (accepted = true <->
     isValid u = true /\ combined_target (_tabdata p) = normal) /\
    (isValid u = false -> accepted = false).
Proof.
  intros out. subst out.
  destruct (acceptNavigationRequest_link env u is_main_frame p) as [line ->].
  eexists. split; [reflexivity|]. split; [reflexivity|].
  split; [reflexivity|]. split.
  - rewrite andb_true_iff, ClickTarget_eqb_eq. reflexivity.
  - intros ->. reflexivity.
Qed.

Lemma acceptNavigationRequest_link_clicked_witness :
  isValid Sample.broken_url = false /\
  result_of (acceptNavigationRequest Sample.qt_5_6_2 Sample.broken_url
               NavigationTypeLinkClicked true Sample.a_page) = Return false.
Proof.
  split; [reflexivity|].
  destruct (acceptNavigationRequest_link_clicked
              Sample.qt_5_6_2 Sample.broken_url true Sample.a_page)
    as (accepted & Hres & _ & _ & _ & Hinvalid).
  rewrite Hres, (Hinvalid eq_refl). reflexivity.
Defined.

(** C5: for every navigation request whose type is not link-click,
    [acceptNavigationRequest] returns True, for every URL, click target
    and main-frame flag; it emits no [link_clicked] signal and leaves the
    page as it was. *)
Theorem acceptNavigationRequest_not_link_clicked env u typ is_main_frame p :
  typ <> NavigationTypeLinkClicked ->
  let out := acceptNavigationRequest env u typ is_main_frame p in
  result_of out = Return true /\
  state_of out = p /\
  Forall (fun e => is_link_clicked e = false) (trace_of out).
Proof.
  intros Htyp out. subst out.
  destruct (acceptNavigationRequest_other env u typ is_main_frame p Htyp)
    as [line ->].
  repeat split. repeat constructor.
Qed.

Lemma acceptNavigationRequest_not_link_clicked_witness :
  NavigationTypeReload <> NavigationTypeLinkClicked /\
  result_of (acceptNavigationRequest Sample.qt_5_6_2 Sample.broken_url
               NavigationTypeReload false
               (WebEnginePage.__init__ (mkTabData tab) Sample.example_url ""))
    = Return true.
Proof.
  assert (Htyp : NavigationTypeReload <> NavigationTypeLinkClicked)
    by discriminate.
  split; [exact Htyp|].
  apply (acceptNavigationRequest_not_link_clicked
           Sample.qt_5_6_2 Sample.broken_url NavigationTypeReload false
           (WebEnginePage.__init__ (mkTabData tab) Sample.example_url "")
           Htyp).
Defined.

(** ** javaScriptConsoleMessage *)

Lemma level_to_logger_known level :
  known_level level -> is_Some (level_to_logger !! level).
Proof.
  intros [->|[->| ->]]; eexists; vm_compute; reflexivity.
Qed.

Lemma level_to_logger_unknown level :
  ~ known_level level -> level_to_logger !! level = None.
Proof.
  unfold known_level, level_to_logger. intros Hno.
  rewrite !lookup_insert_ne, lookup_singleton_ne; [reflexivity|..];
    intros <-; tauto.
Qed.

Lemma level_to_logger_dom level :
  is_Some (level_to_logger !! level) <-> known_level level.
Proof.
  split; [|apply level_to_logger_known].
  intros Hsome. destruct (decide (known_level level)) as [Hk|Hk];
    [exact Hk|].
  rewrite (level_to_logger_unknown level Hk) in Hsome.
  destruct Hsome as [x Hx]. discriminate Hx.
Qed.


(** C10: the console-message handler is total only for the three known
    message levels.  When the configured verbosity is not 'none', a
    message whose level is none of info, warning and error makes the
    dictionary lookup raise [KeyError]: nothing is logged and the handler
    does not return.  For the three known levels it logs one line to the
    level's logger and returns. *)
Theorem javaScriptConsoleMessage_unknown_level_raises
    env level msg line source p :
  config_get env "general" "log-javascript-console" <> "none" ->
  let out := javaScriptConsoleMessage env level msg line source p in
  (~ known_level level ->
   out = (Raise (KeyError level), p,
          [ConfigGet "general" "log-javascript-console"])) /\
  (known_level level ->
   exists logger,
     level_to_logger !! level = Some logger /\
     out = (Return tt, p,
            [ConfigGet "general" "log-javascript-console";
             Log logger ("[" +:+ source +:+ ":" +:+ pretty line +:+ "] "
                         +:+ msg)])).
Proof.
  intros Hsetting out. subst out.
  apply String.eqb_neq in Hsetting.
  split.
  - intros Hlevel. run_callback. rewrite Hsetting.
    rewrite (level_to_logger_unknown level Hlevel). reflexivity.
  - intros Hlevel.
    destruct (level_to_logger_known level Hlevel) as [logger Hlogger].
    exists logger. split; [exact Hlogger|].
    run_callback. rewrite Hsetting, Hlogger. reflexivity.
Qed.

Lemma javaScriptConsoleMessage_unknown_level_raises_witness :
  config_get Sample.qt_5_6_2 "general" "log-javascript-console" <> "none" /\
  ~ known_level 7 /\
  javaScriptConsoleMessage Sample.qt_5_6_2 7 "boo" 12 "x.js" Sample.a_page =
    (Raise (KeyError 7), Sample.a_page,
     [ConfigGet "general" "log-javascript-console"]).
Proof.
  assert (Hsetting : config_get Sample.qt_5_6_2 "general"
                       "log-javascript-console" <> "none")
    by discriminate.
  assert (Hlevel : ~ known_level 7)
    by (intros [H|[H|H]]; discriminate H).
  split; [exact Hsetting|]. split; [exact Hlevel|].
  apply (javaScriptConsoleMessage_unknown_level_raises
           Sample.qt_5_6_2 7 "boo" 12 "x.js" Sample.a_page Hsetting).
  exact Hlevel.
Defined.

(** ** The shutting-down flag *)

Section ShuttingDown.

Variable env : Env.

Lemma keeps_setHtml content : keeps _is_shutting_down (setHtml content).
Proof. intros p Hp. exact Hp. Qed.

Lemma keeps_page_shutdown : keeps _is_shutting_down WebEnginePage.shutdown.
Proof. intros p _. reflexivity. Qed.

Lemma keeps_certificateError error :
  keeps _is_shutting_down (certificateError env error).
Proof.
  unfold certificateError. cbv zeta.
  repeat match goal with
         | |- keeps _ (bind _ _) => apply keeps_bind
         | |- forall _, keeps _ _ => intro
         | |- keeps _ (if _ then _ else _) => apply keeps_if
         | |- keeps _ (setHtml _) => apply keeps_setHtml
         | |- keeps _ _ => solve [auto with keeps]
         end.
Qed.

Lemma keeps_javaScriptConfirm u js_msg :
  keeps _is_shutting_down (javaScriptConfirm env u js_msg).
Proof.
  unfold javaScriptConfirm.
  apply keeps_bind; [apply keeps_get|]. intros p.
  apply keeps_if; [apply keeps_ret|].
  apply keeps_bind; [apply keeps_call|]. intros [b|]; auto with keeps.
Qed.

Lemma keeps_javaScriptAlert u js_msg :
  keeps _is_shutting_down (javaScriptAlert env u js_msg).
Proof.
  unfold javaScriptAlert.
  apply keeps_bind; [apply keeps_get|]. intros p.
  apply keeps_if; [apply keeps_ret|].
  apply keeps_bind; [apply keeps_call|]. intros [b|]; auto with keeps.
Qed.

Lemma keeps_javaScriptConsoleMessage level msg line source :
  keeps _is_shutting_down
        (javaScriptConsoleMessage env level msg line source).
Proof.
  unfold javaScriptConsoleMessage.
  apply keeps_bind; [apply keeps_call|]. intros setting.
  apply keeps_if; [apply keeps_ret|].
  destruct (level_to_logger !! level); auto with keeps.
Qed.

Lemma keeps_acceptNavigationRequest u typ is_main_frame :
  keeps _is_shutting_down (acceptNavigationRequest env u typ is_main_frame).
Proof.
  unfold acceptNavigationRequest.
  apply keeps_bind; [apply keeps_get|]. intros p.
  apply keeps_bind; [apply keeps_emit|]. intros _.
  apply keeps_if; auto with keeps.
Qed.

(** A page callback run through the view changes the view's flag the
    way it changes the page's. *)
Lemma keeps_on_page {A} (m : M Page A) :
  keeps _is_shutting_down m -> keeps shutting_down_flag (on_page m).
Proof.
  intros Hm v Hv. specialize (Hm (page v) Hv).
  unfold on_page, shutting_down_flag, state_of in *.
  destruct (m (page v)) as [[r p] t]. exact Hm.
Qed.

Lemma keeps_createWindow wintype :
  keeps shutting_down_flag (createWindow env wintype).
Proof.
  unfold createWindow.
  apply keeps_bind; [apply keeps_emit|]. intros _.
  apply keeps_if; [auto with keeps|].
  apply keeps_bind; [repeat apply keeps_if; auto with keeps|].
  intros background. auto 6 with keeps.
Qed.

Lemma keeps_perform c : keeps shutting_down_flag (perform env c).
Proof.
  destruct c; cbn [perform];
    repeat first [ apply keeps_void | apply keeps_on_page ];
    auto using keeps_createWindow, keeps_page_shutdown,
      keeps_certificateError, keeps_javaScriptConfirm,
      keeps_javaScriptAlert, keeps_javaScriptConsoleMessage,
      keeps_acceptNavigationRequest.
Qed.

Lemma run_keeps_flag cs v :
  shutting_down_flag v = true -> shutting_down_flag (run env cs v) = true.
Proof.
  revert v. induction cs as [|c cs IH]; intros v Hv; [exact Hv|].
  cbn [run fold_left]. apply IH. apply keeps_perform. exact Hv.
Qed.

Lemma run_app cs1 cs2 v : run env (cs1 ++ cs2) v = run env cs2 (run env cs1 v).
Proof. apply fold_left_app. Qed.

End ShuttingDown.

(** C8: the page's shutting-down flag is False at construction, [shutdown]
    (of the page, or of the view that owns it) sets it to True, and no
    sequence of callbacks of the view and the page ever takes it from
    True back to False: along any run the flag, once True at some point,
    is True at every later point. *)
Theorem shutting_down_flag_monotone :
  (forall tabdata requested content,
     _is_shutting_down (WebEnginePage.__init__ tabdata requested content)
       = false) /\
  (forall tabdata win_id requested content,
     shutting_down_flag
       (WebEngineView.__init__ tabdata win_id requested content) = false) /\
  (forall p, _is_shutting_down (state_of (WebEnginePage.shutdown p)) = true) /\
  (forall v, shutting_down_flag (state_of (WebEngineView.shutdown v)) = true) /\
  (forall env c v,
     shutting_down_flag v = true -> shutting_down_flag (step env v c) = true) /\
  (forall env before after v,
     shutting_down_flag (run env before v) = true ->
     shutting_down_flag (run env (before ++ after) v) = true).
Proof.
  repeat split.
  - intros env c v Hv. apply keeps_perform. exact Hv.
  - intros env before after v Hv. rewrite run_app.
    apply run_keeps_flag. exact Hv.
Qed.

Lemma shutting_down_flag_monotone_witness :
  shutting_down_flag
    (run Sample.qt_5_6_2
         [Page_javaScriptAlert Sample.example_url "hi"; View_shutdown]
         Sample.a_view) = true /\
  shutting_down_flag
    (run Sample.qt_5_6_2
         ([Page_javaScriptAlert Sample.example_url "hi"; View_shutdown]
          ++ [Page_certificateError Sample.fatal_error;
              View_createWindow 99;
              Page_javaScriptConsoleMessage 7 "boo" 12 "x.js";
              Page_acceptNavigationRequest Sample.broken_url 0 true])
         Sample.a_view) = true.
Proof.
  split; [reflexivity|].
  destruct shutting_down_flag_monotone as (_ & _ & _ & _ & _ & Hrun).
  apply Hrun. reflexivity.
Defined.


(** * Further properties of the callbacks *)

(** ** createWindow: the kinds that open a tab *)

Section CreateWindowKinds.

Variable env : Env.

Lemma accepted_unsupported wintype :
  bool_decide (wintype ∈ [WebBrowserWindow; WebDialog]) = true ->
  background_of env wintype = false.
Proof.
  intros Hin. apply bool_decide_eq_true_1 in Hin.
  rewrite !elem_of_cons, elem_of_nil in Hin. unfold background_of.
  destruct Hin as [->|[->|[]]]; apply andb_false_r.
Qed.

(** Gate open, kind accepted: one registry lookup, one [tabopen]. *)
Lemma createWindow_accepted wintype v :
  qtbug_54419_fixed env = true ->
  accepted_wintype env wintype = true ->
  createWindow env wintype v =
    (Return (tabopen_widget env (_win_id v) (background_of env wintype)), v,
     createWindow_debug env wintype
     :: (if bool_decide (wintype ∈ [WebBrowserWindow; WebDialog])
         then [Log webview_warning
                   (qenum_key env "WebWindowType" wintype
                    +:+ " requested, but we don't support that!")]
         else [])
     ++ [ObjregGet "tabbed-browser" "window" (_win_id v);
         TabOpen (_win_id v) (background_of env wintype)]).
Proof.
  intros Hgate Hacc. unfold accepted_wintype in Hacc.
  run_callback. rewrite Hgate. cbn [negb].
  destruct (bool_decide (wintype ∈ [WebBrowserWindow; WebDialog])) eqn:Hin.
  - rewrite (accepted_unsupported wintype Hin). reflexivity.
  - cbn [orb] in Hacc. unfold background_of.
    destruct (Z.eqb wintype WebBrowserTab) eqn:Htab.
    + apply Z.eqb_eq in Htab. subst wintype.
      rewrite andb_false_r. reflexivity.
    + cbn [orb] in Hacc. rewrite Hacc. reflexivity.
Qed.

(** Gate open, kind not accepted: [ValueError], after the first debug
    line only. *)
Lemma createWindow_not_accepted wintype v :
  qtbug_54419_fixed env = true ->
  accepted_wintype env wintype = false ->
  createWindow env wintype v =
    (Raise (ValueError ("Invalid wintype "
                        +:+ qenum_key env "WebWindowType" wintype)),
     v, [createWindow_debug env wintype]).
Proof.
  intros Hgate Hacc. unfold accepted_wintype in Hacc.
  apply orb_false_iff in Hacc as [Hacc Hbg].
  apply orb_false_iff in Hacc as [Hin Htab].
  run_callback. rewrite Hgate. cbn [negb].
  rewrite Hin, Htab, Hbg. reflexivity.
Qed.

End CreateWindowKinds.

(** X1: with the workaround gate open, a request for a foreground tab
    ([WebBrowserTab]) looks up the window's tabbed browser, opens a tab
    with [background=False] and returns its widget; nothing but the first
    debug line is logged (no warning), and the view is left as it was. *)
Theorem createWindow_foreground_tab env v :
  qtbug_54419_fixed env = true ->
  createWindow env WebBrowserTab v =
    (Return (tabopen_widget env (_win_id v) false), v,
     [createWindow_debug env WebBrowserTab;
      ObjregGet "tabbed-browser" "window" (_win_id v);
      TabOpen (_win_id v) false]).
Proof.
  intros Hgate.
  rewrite (createWindow_accepted env WebBrowserTab v Hgate)
    by (unfold accepted_wintype; rewrite orb_true_r; reflexivity).
  unfold background_of. rewrite andb_false_r. reflexivity.
Qed.

Lemma createWindow_foreground_tab_witness :
  qtbug_54419_fixed Sample.qt_5_6_2 = true /\
  result_of (createWindow Sample.qt_5_6_2 WebBrowserTab Sample.a_view)
    = Return (Some 7).
Proof.
  split; [reflexivity|].
  rewrite (createWindow_foreground_tab Sample.qt_5_6_2 Sample.a_view eq_refl).
  reflexivity.
Defined.

(** X2: with the workaround gate open and an engine that has the
    [WebBrowserBackgroundTab] kind, a request of that kind opens a tab
    with [background=True] and returns its widget, again with no
    warning. *)
Theorem createWindow_background_tab env v :
  qtbug_54419_fixed env = true ->
  has_WebBrowserBackgroundTab env = true ->
  createWindow env WebBrowserBackgroundTab v =
    (Return (tabopen_widget env (_win_id v) true), v,
     [createWindow_debug env WebBrowserBackgroundTab;
      ObjregGet "tabbed-browser" "window" (_win_id v);
      TabOpen (_win_id v) true]).
Proof.
  intros Hgate Hhas.
  rewrite (createWindow_accepted env WebBrowserBackgroundTab v Hgate)
    by (unfold accepted_wintype; rewrite Hhas; reflexivity).
  unfold background_of. rewrite Hhas. reflexivity.
Qed.

Lemma createWindow_background_tab_witness :
  qtbug_54419_fixed Scenario.qt_5_7_1 = true /\
  has_WebBrowserBackgroundTab Scenario.qt_5_7_1 = true /\
  result_of (createWindow Scenario.qt_5_7_1 WebBrowserBackgroundTab
               Sample.a_view) = Return (Some 8).
Proof.
  split; [reflexivity|]. split; [reflexivity|].
  rewrite (createWindow_background_tab Scenario.qt_5_7_1 Sample.a_view
             eq_refl eq_refl).
  reflexivity.
Defined.

(** X3: on an engine whose [QWebEnginePage] has no
    [WebBrowserBackgroundTab] attribute (Qt before 5.7), a request
    carrying that kind's number is not recognised: with the gate open
    [createWindow] raises [ValueError] and opens nothing. *)
Theorem createWindow_background_tab_unknown env v :
  qtbug_54419_fixed env = true ->
  has_WebBrowserBackgroundTab env = false ->
  createWindow env WebBrowserBackgroundTab v =
    (Raise (ValueError
              ("Invalid wintype "
               +:+ qenum_key env "WebWindowType" WebBrowserBackgroundTab)),
     v, [createWindow_debug env WebBrowserBackgroundTab]).
Proof.
  intros Hgate Hhas.
  apply (createWindow_not_accepted env WebBrowserBackgroundTab v Hgate).
  unfold accepted_wintype. rewrite Hhas. reflexivity.
Qed.

Lemma createWindow_background_tab_unknown_witness :
  qtbug_54419_fixed Sample.qt_5_6_2 = true /\
  has_WebBrowserBackgroundTab Sample.qt_5_6_2 = false /\
  result_of (createWindow Sample.qt_5_6_2 WebBrowserBackgroundTab
               Sample.a_view)
    = Raise (ValueError "Invalid wintype WebWindowType(3)").
Proof.
  split; [reflexivity|]. split; [reflexivity|].
  rewrite (createWindow_background_tab_unknown Sample.qt_5_6_2 Sample.a_view
             eq_refl eq_refl).
  reflexivity.
Defined.

(** X4: [createWindow] raises exactly when the workaround gate is open
    and the kind is none the chain of tests accepts (browser window, web
    dialog, tab, and background tab where the engine has it).  In every
    other case it returns. *)
Theorem createWindow_raises_iff env wintype v :
  raises (createWindow env wintype v) <->
  qtbug_54419_fixed env = true /\ accepted_wintype env wintype = false.
Proof.
  unfold raises. split.
  - intros [e He].
    destruct (qtbug_54419_fixed env) eqn:Hgate.
    + destruct (accepted_wintype env wintype) eqn:Hacc; [|auto].
      rewrite (createWindow_accepted env wintype v Hgate Hacc) in He.
      discriminate He.
    + rewrite (createWindow_gate_closed env wintype v Hgate) in He.
      discriminate He.
  - intros [Hgate Hacc].
    rewrite (createWindow_not_accepted env wintype v Hgate Hacc).
    eexists. reflexivity.
Qed.

(** X5: whatever the request, [createWindow] leaves the view as it was
    and calls [tabopen] at most once: once, for the view's own window id
    and with [background] true only for a background-tab kind, when the
    gate is open and the kind is accepted; not at all otherwise. *)
Theorem createWindow_tabopen_calls env wintype v :
  let out := createWindow env wintype v in
  state_of out = v /\
  filter (fun e => is_TabOpen e = true) (trace_of out) =
    if qtbug_54419_fixed env && accepted_wintype env wintype
    then [TabOpen (_win_id v) (background_of env wintype)]
    else [].
Proof.
  intros out. subst out.
  destruct (qtbug_54419_fixed env) eqn:Hgate; cbn [andb].
  - destruct (accepted_wintype env wintype) eqn:Hacc.
    + rewrite (createWindow_accepted env wintype v Hgate Hacc).
      split; [reflexivity|]. unfold createWindow_debug.
      destruct (bool_decide (wintype ∈ [WebBrowserWindow; WebDialog]));
        reflexivity.
    + rewrite (createWindow_not_accepted env wintype v Hgate Hacc).
      split; reflexivity.
  - rewrite (createWindow_gate_closed env wintype v Hgate).
    split; reflexivity.
Qed.

(** X6: the environment override alone opens the gate.  If
    [QUTE_QTBUG54419_PATCHED] is set to any non-empty string, the gate is
    open whatever the Qt version, and a tab request opens a tab; set to
    the empty string it counts for nothing, and with neither version
    range holding the gate stays closed. *)
Theorem createWindow_environment_override env v :
  (forall s,
     environ env !! "QUTE_QTBUG54419_PATCHED" = Some s -> s <> "" ->
     qtbug_54419_fixed env = true /\
     result_of (createWindow env WebBrowserTab v)
       = Return (tabopen_widget env (_win_id v) false)) /\
  ((version_check env "5.6.2" && negb (version_check env "5.7.0")) = false ->
   version_check env "5.7.1" = false ->
   environ env !! "QUTE_QTBUG54419_PATCHED" = Some "" ->
   qtbug_54419_fixed env = false /\
   result_of (createWindow env WebBrowserTab v) = Return None).
Proof.
  split.
  - intros s Hs Hne.
    assert (Hgate : qtbug_54419_fixed env = true).
    { unfold qtbug_54419_fixed, truthy. rewrite Hs.
      change (default "" (Some s)) with s.
      apply String.eqb_neq in Hne. rewrite Hne. apply orb_true_r. }
    split; [exact Hgate|].
    rewrite (createWindow_accepted env WebBrowserTab v Hgate)
      by (unfold accepted_wintype; rewrite orb_true_r; reflexivity).
    unfold background_of. rewrite andb_false_r. reflexivity.
  - intros H1 H2 H3.
    assert (Hgate : qtbug_54419_fixed env = false)
      by (apply qtbug_54419_fixed_false; auto).
    split; [exact Hgate|].
    rewrite (createWindow_gate_closed env WebBrowserTab v Hgate).
    reflexivity.
Qed.

Lemma createWindow_environment_override_witness :
  environ Scenario.qt_5_7_0_patched !! "QUTE_QTBUG54419_PATCHED" = Some "1" /\
  version_check Scenario.qt_5_7_0_patched "5.7.1" = false /\
  result_of (createWindow Scenario.qt_5_7_0_patched WebBrowserTab
               Sample.a_view) = Return (Some 7).
Proof.
  assert (Hset : environ Scenario.qt_5_7_0_patched
                   !! "QUTE_QTBUG54419_PATCHED" = Some "1")
    by (vm_compute; reflexivity).
  split; [exact Hset|]. split; [reflexivity|].
  destruct (createWindow_environment_override Scenario.qt_5_7_0_patched
              Sample.a_view) as [Hopen _].
  destruct (Hopen "1" Hset) as [_ Hres]; [discriminate|].
  rewrite Hres. reflexivity.
Defined.

(** ** JavaScript dialogs while the page is alive *)

(** X7: on a page that is not shutting down, [javaScriptConfirm] asks
    the policy collaborator exactly once and returns its answer without
    going to the engine; only when the policy raises [CallSuper] does it
    fall back to the engine's own confirm dialog, whose answer it then
    returns.  The page is left as it was either way. *)
Theorem javaScriptConfirm_delegates env u js_msg p :
  _is_shutting_down p = false ->
  let out := javaScriptConfirm env u js_msg p in
  state_of out = p /\
  filter (fun e => is_policy_call e = true) (trace_of out)
    = [JavascriptConfirm u js_msg] /\
  (forall b, javascript_confirm env u js_msg = Answer b ->
     result_of out = Return b /\
     Forall (fun e => is_super_call e = false) (trace_of out)) /\
  (javascript_confirm env u js_msg = CallSuper ->
     result_of out = Return (super_javaScriptConfirm env u js_msg) /\
     trace_of out = [JavascriptConfirm u js_msg;
                     SuperJavaScriptConfirm u js_msg]).
Proof.
  intros Hflag out. subst out. run_callback. rewrite Hflag.
  destruct (javascript_confirm env u js_msg) as [b|];
    (split; [reflexivity|]); (split; [reflexivity|]); split.
  - intros b' Hb. injection Hb as <-. split; [reflexivity|].
    repeat constructor.
  - intros H. discriminate H.
  - intros b' Hb. discriminate Hb.
  - intros _. split; reflexivity.
Qed.

Lemma javaScriptConfirm_delegates_witness :
  _is_shutting_down Sample.a_page = false /\
  javascript_confirm Scenario.qt_5_7_0_patched Sample.example_url "Leave?"
    = Answer false /\
  result_of (javaScriptConfirm Scenario.qt_5_7_0_patched Sample.example_url
               "Leave?" Sample.a_page) = Return false.
Proof.
  split; [reflexivity|]. split; [reflexivity|].
  destruct (javaScriptConfirm_delegates Scenario.qt_5_7_0_patched
              Sample.example_url "Leave?" Sample.a_page eq_refl)
    as (_ & _ & Hanswer & _).
  destruct (Hanswer false eq_refl) as [Hres _]. exact Hres.
Defined.

(** X8: on a page that is not shutting down, [javaScriptAlert] hands
    the message to the policy collaborator exactly once; the engine's own
    alert is shown only when the policy raises [CallSuper].  It returns
    nothing and leaves the page as it was. *)
Theorem javaScriptAlert_delegates env u js_msg p :
  _is_shutting_down p = false ->
  let out := javaScriptAlert env u js_msg p in
  result_of out = Return tt /\
  state_of out = p /\
  trace_of out =
    match javascript_alert env u js_msg with
    | Answer _ => [JavascriptAlert u js_msg]
    | CallSuper => [JavascriptAlert u js_msg; SuperJavaScriptAlert u js_msg]
    end.
Proof.
  intros Hflag out. subst out. run_callback. rewrite Hflag.
  destruct (javascript_alert env u js_msg) as [[]|]; repeat split.
Qed.

Lemma javaScriptAlert_delegates_witness :
  _is_shutting_down Sample.a_page = false /\
  trace_of (javaScriptAlert Scenario.qt_5_7_1 Sample.example_url "hi"
              Sample.a_page)
    = [JavascriptAlert Sample.example_url "hi";
       SuperJavaScriptAlert Sample.example_url "hi"].
Proof.
  split; [reflexivity|].
  destruct (javaScriptAlert_delegates Scenario.qt_5_7_1 Sample.example_url
              "hi" Sample.a_page eq_refl) as (_ & _ & Htrace).
  rewrite Htrace. reflexivity.
Defined.

(** ** Console messages *)

(** X9: when the configured verbosity is 'none', the console-message
    handler reads the setting and returns: nothing is logged, and a
    message of an unknown level does not raise either, because the
    dictionary is never reached. *)
Theorem javaScriptConsoleMessage_none env level msg line source p :
  config_get env "general" "log-javascript-console" = "none" ->
  javaScriptConsoleMessage env level msg line source p =
    (Return tt, p, [ConfigGet "general" "log-javascript-console"]).
Proof.
  intros Hsetting. run_callback. rewrite Hsetting. reflexivity.
Qed.

Lemma javaScriptConsoleMessage_none_witness :
  config_get Scenario.qt_5_7_1 "general" "log-javascript-console" = "none" /\
  ~ known_level 7 /\
  javaScriptConsoleMessage Scenario.qt_5_7_1 7 "boo" 12 "x.js" Sample.a_page =
    (Return tt, Sample.a_page, [ConfigGet "general" "log-javascript-console"]).
Proof.
  split; [reflexivity|].
  split; [intros [H|[H|H]]; discriminate H|].
  apply (javaScriptConsoleMessage_none Scenario.qt_5_7_1 7 "boo" 12 "x.js"
           Sample.a_page).
  reflexivity.
Defined.

(** X10: with a verbosity other than 'none', each known level goes to
    its own logger: info to [log.js.info], warning to [log.js.warning],
    error to [log.js.error]; the line logged is "[source:line] msg". *)
Theorem javaScriptConsoleMessage_routing env msg line source p :
  config_get env "general" "log-javascript-console" <> "none" ->
  javaScriptConsoleMessage env InfoMessageLevel msg line source p =
    (Return tt, p, [ConfigGet "general" "log-javascript-console";
                    Log js_info (logstring source line msg)]) /\
  javaScriptConsoleMessage env WarningMessageLevel msg line source p =
    (Return tt, p, [ConfigGet "general" "log-javascript-console";
                    Log js_warning (logstring source line msg)]) /\
  javaScriptConsoleMessage env ErrorMessageLevel msg line source p =
    (Return tt, p, [ConfigGet "general" "log-javascript-console";
                    Log js_error (logstring source line msg)]).
Proof.
  intros Hsetting. apply String.eqb_neq in Hsetting.
  repeat split; run_callback; rewrite Hsetting; reflexivity.
Qed.

Lemma javaScriptConsoleMessage_routing_witness :
  config_get Sample.qt_5_6_2 "general" "log-javascript-console" <> "none" /\
  trace_of (javaScriptConsoleMessage Sample.qt_5_6_2 ErrorMessageLevel
              "x is not defined" 12 "app.js" Sample.a_page) =
    [ConfigGet "general" "log-javascript-console";
     Log js_error "[app.js:12] x is not defined"].
Proof.
  assert (Hsetting : config_get Sample.qt_5_6_2 "general"
                       "log-javascript-console" <> "none")
    by discriminate.
  split; [exact Hsetting|].
  destruct (javaScriptConsoleMessage_routing Sample.qt_5_6_2
              "x is not defined" 12 "app.js" Sample.a_page Hsetting)
    as (_ & _ & Herr).
  rewrite Herr. reflexivity.
Defined.

(** X11: the verbosity setting acts as an on/off switch only.  Any two
    settings other than 'none' give the same outcome for the same
    message: the handler never compares the message's level with the
    configured one. *)
Theorem javaScriptConsoleMessage_setting_is_switch
    env1 env2 level msg line source p :
  config_get env1 "general" "log-javascript-console" <> "none" ->
  config_get env2 "general" "log-javascript-console" <> "none" ->
  javaScriptConsoleMessage env1 level msg line source p =
  javaScriptConsoleMessage env2 level msg line source p.
Proof.
  intros H1 H2. apply String.eqb_neq in H1, H2.
  run_callback. rewrite H1, H2. reflexivity.
Qed.

Lemma javaScriptConsoleMessage_setting_is_switch_witness :
  config_get Sample.qt_5_6_2 "general" "log-javascript-console" = "debug" /\
  config_get Scenario.qt_5_7_0_patched "general" "log-javascript-console"
    = "info" /\
  javaScriptConsoleMessage Sample.qt_5_6_2 ErrorMessageLevel "boo" 1 "x.js"
                           Sample.a_page =
  javaScriptConsoleMessage Scenario.qt_5_7_0_patched ErrorMessageLevel
                           "boo" 1 "x.js" Sample.a_page.
Proof.
  split; [reflexivity|]. split; [reflexivity|].
  apply (javaScriptConsoleMessage_setting_is_switch
           Sample.qt_5_6_2 Scenario.qt_5_7_0_patched);
    discriminate.
Defined.

(** ** certificateError: what always happens *)

(** X12: for an overridable certificate error, [certificateError] asks
    the policy collaborator exactly once, about the error's URL and the
    one wrapped error, and returns the collaborator's answer as the
    ignore decision. *)
Theorem certificateError_overridable env error p :
  is_overridable error = true ->
  let out := certificateError env error p in
  result_of out = Return (ignore_certificate_errors env (url error) [error]) /\
  filter (fun e => is_policy_call e = true) (trace_of out)
    = [IgnoreCertificateErrors (url error) [error]].
Proof.
  intros Hover out. subst out. rewrite certificateError_run.
  unfold error_page_shown, ignore_decision. rewrite Hover.
  split; [reflexivity|].
  unfold trace_of. cbn [snd].
  destruct (negb _ && _); reflexivity.
Qed.

Lemma certificateError_overridable_witness :
  is_overridable Scenario.soft_error = true /\
  result_of (certificateError Scenario.qt_5_7_0_patched Scenario.soft_error
               Sample.a_page) = Return true /\
  html (state_of (certificateError Scenario.qt_5_7_0_patched
                    Scenario.soft_error Sample.a_page)) = "".
Proof.
  split; [reflexivity|].
  destruct (certificateError_overridable Scenario.qt_5_7_0_patched
              Scenario.soft_error Sample.a_page eq_refl) as [Hres _].
  split; [rewrite Hres; reflexivity | reflexivity].
Defined.


(** ** What a callback leaves behind *)

Section Footprint.

Variable env : Env.

Lemma state_of_void {S A} (m : M S A) s : state_of (void m s) = state_of (m s).
Proof.
  unfold void, bind, ret, state_of.
  destruct (m s) as [[[a|e] s1] t1]; reflexivity.
Qed.

Lemma result_of_void {S A} (m : M S A) s :
  result_of (void m s) =
    match result_of (m s) with Return _ => Return tt | Raise e => Raise e end.
Proof.
  unfold void, bind, ret, result_of.
  destruct (m s) as [[[a|e] s1] t1]; reflexivity.
Qed.

Lemma state_of_on_page {A} (m : M Page A) v :
  state_of (on_page m v) =
    {| _win_id := _win_id v; page := state_of (m (page v)) |}.
Proof.
  unfold on_page, state_of. destruct (m (page v)) as [[r p] t]. reflexivity.
Qed.

Lemma result_of_on_page {A} (m : M Page A) v :
  result_of (on_page m v) = result_of (m (page v)).
Proof.
  unfold on_page, result_of. destruct (m (page v)) as [[r p] t]. reflexivity.
Qed.

Lemma createWindow_state wintype v : state_of (createWindow env wintype v) = v.
Proof.
  destruct (qtbug_54419_fixed env) eqn:Hgate.
  - destruct (accepted_wintype env wintype) eqn:Hacc.
    + rewrite (createWindow_accepted env wintype v Hgate Hacc). reflexivity.
    + rewrite (createWindow_not_accepted env wintype v Hgate Hacc).
      reflexivity.
  - rewrite (createWindow_gate_closed env wintype v Hgate). reflexivity.
Qed.

Lemma javaScriptConfirm_state u js_msg p :
  state_of (javaScriptConfirm env u js_msg p) = p /\
  exists b, result_of (javaScriptConfirm env u js_msg p) = Return b.
Proof.
  run_callback. destruct (_is_shutting_down p);
    [|destruct (javascript_confirm env u js_msg)]; eauto.
Qed.

Lemma javaScriptAlert_state u js_msg p :
  state_of (javaScriptAlert env u js_msg p) = p /\
  result_of (javaScriptAlert env u js_msg p) = Return tt.
Proof.
  run_callback. destruct (_is_shutting_down p);
    [|destruct (javascript_alert env u js_msg)]; auto.
Qed.

Lemma javaScriptConsoleMessage_state level msg line source p :
  state_of (javaScriptConsoleMessage env level msg line source p) = p.
Proof.
  run_callback.
  destruct (String.eqb _ "none"); [reflexivity|].
  destruct (level_to_logger !! level); reflexivity.
Qed.

Lemma acceptNavigationRequest_state u typ is_main_frame p :
  state_of (acceptNavigationRequest env u typ is_main_frame p) = p /\
  exists b,
    result_of (acceptNavigationRequest env u typ is_main_frame p) = Return b.
Proof.
  run_callback. destruct (negb (Z.eqb typ NavigationTypeLinkClicked)); eauto.
Qed.

Lemma certificateError_state error p :
  state_of (certificateError env error p) =
    if error_page_shown env error p
    then {| _tabdata := _tabdata p;
            _is_shutting_down := _is_shutting_down p;
            requestedUrl := requestedUrl p;
            html := error_page env error |}
    else p.
Proof. rewrite certificateError_run. reflexivity. Qed.

(** One callback: what it may change of the view. *)
Lemma step_footprint v c :
  _win_id (step env v c) = _win_id v /\
  _tabdata (page (step env v c)) = _tabdata (page v) /\
  requestedUrl (page (step env v c)) = requestedUrl (page v) /\
  shutting_down_flag (step env v c)
    = shutting_down_flag v || is_shutdown_call c /\
  (is_certificateError_call c = false ->
   html (page (step env v c)) = html (page v)).
Proof.
  unfold step, shutting_down_flag.
  destruct c as [|wintype| |error|u js_msg|u js_msg|level msg line source
                 |u typ is_main_frame];
    cbn [perform is_shutdown_call is_certificateError_call];
    rewrite ?state_of_void, ?state_of_on_page; cbn [_win_id page].
  - unfold WebEngineView.shutdown. rewrite state_of_on_page.
    cbn. rewrite orb_true_r. auto.
  - rewrite createWindow_state, orb_false_r. auto.
  - cbn. rewrite orb_true_r. auto.
  - rewrite certificateError_state, orb_false_r.
    destruct (error_page_shown env error (page v)); cbn;
      repeat split; discriminate.
  - rewrite (proj1 (javaScriptConfirm_state u js_msg (page v))), orb_false_r.
    auto.
  - rewrite (proj1 (javaScriptAlert_state u js_msg (page v))), orb_false_r.
    auto.
  - rewrite javaScriptConsoleMessage_state, orb_false_r. auto.
  - rewrite (proj1 (acceptNavigationRequest_state u typ is_main_frame
                      (page v))), orb_false_r.
    auto.
Qed.

Lemma run_flag cs v :
  shutting_down_flag (run env cs v)
    = shutting_down_flag v || existsb is_shutdown_call cs.
Proof.
  revert v. induction cs as [|c cs IH]; intros v; cbn [run fold_left existsb].
  - rewrite orb_false_r. reflexivity.
  - fold (run env cs (step env v c)). rewrite IH.
    destruct (step_footprint v c) as (_ & _ & _ & -> & _).
    rewrite orb_assoc. reflexivity.
Qed.

End Footprint.

(** X14: [shutdown] has no guard of its own.  Called again on a view
    that is already shutting down it leaves the view as the first call
    left it, and it emits [shutting_down] once more: the signal is
    emitted once per call, not once per page. *)
Theorem shutdown_twice v :
  let v1 := state_of (WebEngineView.shutdown v) in
  state_of (WebEngineView.shutdown v1) = v1 /\
  trace_of (WebEngineView.shutdown v) = [Emit shutting_down] /\
  trace_of (WebEngineView.shutdown v1) = [Emit shutting_down] /\
  result_of (WebEngineView.shutdown v1) = Return tt.
Proof. repeat split. Qed.

(** X15: along any sequence of callbacks on a view, the shutting-down
    flag at the end is the flag at the start or-ed with "some call of the
    sequence was shutdown": besides never being reset, the flag is never
    set by any callback other than [shutdown]. *)
Theorem shutting_down_flag_after_run env cs v :
  shutting_down_flag (run env cs v)
    = shutting_down_flag v || existsb is_shutdown_call cs.
Proof. apply run_flag. Qed.



(** X17: once [shutdown] has been among the callbacks run on a view,
    whatever came before and after it (including callbacks that raised),
    the page's dialogs are cut short: [javaScriptConfirm] returns False
    and [javaScriptAlert] returns nothing, with no effect at all. *)
Theorem dialogs_after_run_with_shutdown env cs v u js_msg :
  existsb is_shutdown_call cs = true ->
  let p := page (run env cs v) in
  javaScriptConfirm env u js_msg p = (Return false, p, []) /\
  javaScriptAlert env u js_msg p = (Return tt, p, []).
Proof.
  intros Hcs p.
  assert (Hflag : _is_shutting_down p = true).
  { subst p. change (shutting_down_flag (run env cs v) = true).
    rewrite run_flag, Hcs. apply orb_true_r. }
  split; run_callback; rewrite Hflag; reflexivity.
Qed.

Lemma dialogs_after_run_with_shutdown_witness :
  existsb is_shutdown_call
    [Page_javaScriptAlert Sample.example_url "hi"; Page_shutdown;
     View_createWindow 99] = true /\
  result_of
    (javaScriptConfirm Sample.qt_5_6_2 Sample.example_url "Leave?"
       (page (run Sample.qt_5_6_2
                  [Page_javaScriptAlert Sample.example_url "hi";
                   Page_shutdown; View_createWindow 99]
                  Sample.a_view))) = Return false.
Proof.
  split; [reflexivity|].
  destruct (dialogs_after_run_with_shutdown Sample.qt_5_6_2
              [Page_javaScriptAlert Sample.example_url "hi"; Page_shutdown;
               View_createWindow 99]
              Sample.a_view Sample.example_url "Leave?" eq_refl)
    as [Hc _].
  rewrite Hc. reflexivity.
Defined.

(** X18: of all the callbacks only [createWindow] and
    [javaScriptConsoleMessage] can raise.  [shutdown],
    [certificateError], [javaScriptConfirm], [javaScriptAlert] and
    [acceptNavigationRequest] return for every input and every answer of
    the collaborators. *)
Theorem only_two_callbacks_raise env c v :
  may_raise c = false -> result_of (perform env c v) = Return tt.
Proof.
  destruct c as [|wintype| |error|u js_msg|u js_msg|level msg line source
                 |u typ is_main_frame];
    cbn [may_raise perform]; intros Hc; try discriminate Hc;
    rewrite ?result_of_void, ?result_of_on_page.
  - reflexivity.
  - reflexivity.
  - rewrite certificateError_run. reflexivity.
  - destruct (javaScriptConfirm_state env u js_msg (page v)) as [_ [b ->]].
    reflexivity.
  - apply javaScriptAlert_state.
  - destruct (acceptNavigationRequest_state env u typ is_main_frame (page v))
      as [_ [b ->]].
    reflexivity.
Qed.

Lemma only_two_callbacks_raise_witness :
  may_raise (Page_certificateError Sample.fatal_error) = false /\
  result_of (perform Sample.qt_5_6_2 (Page_certificateError Sample.fatal_error)
               Sample.a_view) = Return tt.
Proof.
  split; [reflexivity|].
  apply (only_two_callbacks_raise Sample.qt_5_6_2
           (Page_certificateError Sample.fatal_error) Sample.a_view).
  reflexivity.
Defined.

(** X19: [acceptNavigationRequest] uses the main-frame flag for its
    debug line only.  The decision, the page and the signals emitted are
    the same for a main-frame and a sub-frame request: a link click in a
    frame is delegated (or accepted) exactly like one in the main
    frame. *)
Theorem acceptNavigationRequest_ignores_frame env u typ p b1 b2 :
  let out1 := acceptNavigationRequest env u typ b1 p in
  let out2 := acceptNavigationRequest env u typ b2 p in
  result_of out1 = result_of out2 /\
  state_of out1 = state_of out2 /\
  filter (fun e => is_Emit e = true) (trace_of out1)
    = filter (fun e => is_Emit e = true) (trace_of out2).
Proof.
  intros out1 out2. subst out1 out2. run_callback.
  destruct (negb (Z.eqb typ NavigationTypeLinkClicked)); repeat split.
Qed.


